(** * AssimpExportWrapper: the pybind11 adapter around Assimp's Importer
      and Exporter, in its two source variants.

    - [Logged]  embeds src/src/assimp_export.cpp (constructor flag
      [enable_logging], diagnostic lines on std::cout);
    - [Plain]   embeds src/unnamed/part_000 (no flag, no output).

    Assimp itself is a third-party library: its handles, constants and
    member functions are taken as an interface ([Assimp]) and every
    statement below is quantified over all its implementations. *)

From Stdlib Require Import String Ascii ZArith NArith List Bool Arith Lia.
From Stdlib Require Import DecimalString Sorted.
From Equations Require Import Equations.
Import ListNotations.

Open Scope list_scope.
Open Scope string_scope.

(** [std::vector::push_back]; also used for a line sent to a stream. *)
Definition push_back {A : Type} (v : list A) (x : A) : list A :=
  (v ++ [x])%list.

(** ** Data the library hands to the adapter *)

(** [aiReturn] (assimp/types.h); [AI_SUCCESS] is the macro for the first
    enumerator. *)
Variant aiReturn : Type :=
  | aiReturn_SUCCESS
  | aiReturn_FAILURE
  | aiReturn_OUTOFMEMORY.

Definition AI_SUCCESS : aiReturn := aiReturn_SUCCESS.

Definition aiReturn_eqb (a b : aiReturn) : bool :=
  match a, b with
  | aiReturn_SUCCESS, aiReturn_SUCCESS => true
  | aiReturn_FAILURE, aiReturn_FAILURE => true
  | aiReturn_OUTOFMEMORY, aiReturn_OUTOFMEMORY => true
  | _, _ => false
  end.

(** [aiExportFormatDesc] (assimp/cexport.h): three C strings. *)
Record aiExportFormatDesc : Type := mkDesc {
  id : string;
  description : string;
  fileExtension : string
}.

(** [aiNode], reduced to its name: the adapter only tests the root
    pointer against null. *)
Record aiNode : Type := mkNode { mName : string }.

(** [aiScene], with the members the adapter reads.  [mRootNode] is a
    pointer: [None] is the null pointer.  [mFlags] is an unsigned int used
    as a bit set; the three counters are unsigned ints. *)
Record aiScene : Type := mkScene {
  mFlags : Z;
  mRootNode : option aiNode;
  mNumMeshes : N;
  mNumMaterials : N;
  mNumTextures : N
}.

(** ** The wrapped library

    [Importer] and [Exporter] are the states of the two handles, and
    [FileSystem] the files they read and write.  A const member function
    is a function of the handle; [ReadFile] and [Export] return the new
    handle ([Export] also the new file system).  A pointer result is an
    [option].  The [aiProcess_*] bits and [AI_SCENE_FLAGS_INCOMPLETE] come
    from assimp/postprocess.h and assimp/scene.h. *)
Class Assimp : Type := {
  FileSystem : Type;
  Importer : Type;
  Exporter : Type;

  aiProcess_JoinIdenticalVertices : Z;
  aiProcess_Triangulate : Z;
  aiProcess_GenSmoothNormals : Z;
  aiProcess_FlipUVs : Z;
  AI_SCENE_FLAGS_INCOMPLETE : Z;

  file_exists : FileSystem -> string -> bool;

  Importer_new : Importer;
  Importer_ReadFile :
    FileSystem -> Importer -> string -> Z -> Importer * option aiScene;
  Importer_GetErrorString : Importer -> string;

  Exporter_new : Exporter;
  Exporter_GetExportFormatCount : Exporter -> nat;
  Exporter_GetExportFormatDescription :
    Exporter -> nat -> option aiExportFormatDesc;
  Exporter_Export :
    FileSystem -> Exporter -> aiScene -> string -> string ->
    FileSystem * Exporter * aiReturn;
  Exporter_GetErrorString : Exporter -> string
}.

(** ** What a process running the adapter can be observed to do *)

Section Process.
Context {L : Assimp}.

(** The two library calls that change a handle, with their arguments. *)
Variant LibCall : Type :=
  | CallReadFile (pFile : string) (pFlags : Z)
  | CallExport (pScene : aiScene) (pFormatId : string) (pPath : string).

(** The file system, the lines written to std::cout (oldest first) and
    the library calls made so far (oldest first). *)
Record Process : Type := mkProcess {
  fs : FileSystem;
  cout : list string;
  calls : list LibCall
}.

(** [std::to_string] on an unsigned int: decimal, no sign, no padding. *)
Definition to_string (n : N) : string :=
  NilZero.string_of_uint (N.to_uint n).

(** [std::string::empty]. *)
Definition empty (s : string) : bool :=
  match s with
  | EmptyString => true
  | String _ _ => false
  end.

(** One entry of [getSupportedFormats]:
    [std::string(desc->id) + " - " + std::string(desc->description)]. *)
Definition format_entry (desc : aiExportFormatDesc) : string :=
  id desc ++ " - " ++ description desc.

(** The loop of [getSupportedFormats]:
    [for (size_t i = 0; i < exporter.GetExportFormatCount(); ++i)].
    The count is asked again before every iteration.  [i] never exceeds
    the count, itself a size_t, so [++i] cannot wrap.  Dereferencing a
    null [desc] is undefined behaviour: [None]. *)
Equations? formats_loop (e : Exporter) (i : nat) (formats : list string)
  : option (list string)
  by wf (Exporter_GetExportFormatCount e - i) lt :=
  formats_loop e i formats with lt_dec i (Exporter_GetExportFormatCount e) => {
    | left _ with Exporter_GetExportFormatDescription e i => {
        | Some desc :=
            formats_loop e (S i) (push_back formats (format_entry desc));
        | None := None };
    | right _ := Some formats }.
Proof. lia. Qed.

End Process.

(** ** A state monad for the member functions that change the object *)

Definition M (S A : Type) : Type := S -> A * S.

Definition ret {S A : Type} (a : A) : M S A := fun s => (a, s).

Definition bind {S A B : Type} (m : M S A) (k : A -> M S B) : M S B :=
  fun s => let (a, s') := m s in k a s'.

Declare Scope cpp_scope.
Delimit Scope cpp_scope with cpp.

Notation "x <- c1 ;; c2" := (bind c1 (fun x => c2))
  (at level 61, c1 at next level, right associativity) : cpp_scope.
Notation "c1 ;; c2" := (bind c1 (fun _ => c2))
  (at level 61, right associativity) : cpp_scope.

(** ** src/src/assimp_export.cpp *)

Module Logged.
Section Wrapper.
Context {L : Assimp}.

Record AssimpExportWrapper : Type := mkWrapper {
  importer : Importer;
  exporter : Exporter;
  enable_logging : bool
}.

Definition State : Type := AssimpExportWrapper * Process.

(** [void log(const std::string& msg) const]. *)
Definition log (msg : string) : M State unit :=
  fun '(this, p) =>
    if enable_logging this
    then (tt, (this, mkProcess (fs p)
                       (push_back (cout p) ("[assimp_export] " ++ msg))
                       (calls p)))
    else (tt, (this, p)).

(** The constructor, with the line it prints when logging is on. *)
Definition new (enableLogging : bool) (p : Process)
  : AssimpExportWrapper * Process :=
  let this := mkWrapper Importer_new Exporter_new enableLogging in
  if enable_logging this
  then (this, mkProcess (fs p)
                (push_back (cout p) "[assimp_export] Logger enabled")
                (calls p))
  else (this, p).

Definition importer_ReadFile (pFile : string) (pFlags : Z)
  : M State (option aiScene) :=
  fun '(this, p) =>
    let (imp', scene) := Importer_ReadFile (fs p) (importer this) pFile pFlags in
    (scene,
     (mkWrapper imp' (exporter this) (enable_logging this),
      mkProcess (fs p) (cout p) (push_back (calls p) (CallReadFile pFile pFlags)))).

Definition importer_GetErrorString : M State string :=
  fun '(this, p) => (Importer_GetErrorString (importer this), (this, p)).

Definition exporter_Export (pScene : aiScene) (pFormatId pPath : string)
  : M State aiReturn :=
  fun '(this, p) =>
    let '(fs', exp', r) :=
      Exporter_Export (fs p) (exporter this) pScene pFormatId pPath in
    (r,
     (mkWrapper (importer this) exp' (enable_logging this),
      mkProcess fs' (cout p) (push_back (calls p) (CallExport pScene pFormatId pPath)))).

Definition exporter_GetErrorString : M State string :=
  fun '(this, p) => (Exporter_GetErrorString (exporter this), (this, p)).

(** [std::vector<std::string> getSupportedFormats()]. *)
Definition getSupportedFormats (this : AssimpExportWrapper)
  : option (list string) :=
  formats_loop (exporter this) 0 [].

Open Scope cpp_scope.

(** [bool usdzToObj(const std::string& usdzFile, const std::string& objFile)]. *)
Definition usdzToObj (usdzFile objFile : string) : M State bool :=
  log "Start converting USDZ -> OBJ" ;;
  log ("Input: " ++ usdzFile) ;;
  log ("Output: " ++ objFile) ;;
  let ppFlags :=
    Z.lor (Z.lor (Z.lor aiProcess_Triangulate aiProcess_FlipUVs)
                 aiProcess_GenSmoothNormals)
          aiProcess_JoinIdenticalVertices in
  log "Post-process flags: Triangulate | FlipUVs | GenSmoothNormals | JoinIdenticalVertices" ;;
  scene <- importer_ReadFile usdzFile ppFlags ;;
  match scene with
  | None =>
      err <- importer_GetErrorString ;;
      log ("Import failed: " ++
           (if empty err then "<no error string>" else err)) ;;
      ret false
  | Some scene =>
      if negb (Z.land (mFlags scene) AI_SCENE_FLAGS_INCOMPLETE =? 0)%Z then
        log "Import failed: scene is incomplete (AI_SCENE_FLAGS_INCOMPLETE)" ;;
        err <- importer_GetErrorString ;;
        log ("Importer error: " ++ err) ;;
        ret false
      else
        match mRootNode scene with
        | None =>
            log "Import failed: scene->mRootNode is null" ;;
            err <- importer_GetErrorString ;;
            log ("Importer error: " ++ err) ;;
            ret false
        | Some _ =>
            log "Import succeeded." ;;
            log ("Meshes: " ++ to_string (mNumMeshes scene) ++
                 ", Materials: " ++ to_string (mNumMaterials scene) ++
                 ", Textures: " ++ to_string (mNumTextures scene)) ;;
            log "Begin export to OBJ..." ;;
            result <- exporter_Export scene "obj" objFile ;;
            if negb (aiReturn_eqb result AI_SUCCESS) then
              err <- exporter_GetErrorString ;;
              log ("Export failed: " ++
                   (if empty err then "<no error string>" else err)) ;;
              ret false
            else
              log "Export succeeded." ;;
              ret true
        end
  end.

Close Scope cpp_scope.

(** [std::string getLastError()]. *)
Definition getLastError (this : AssimpExportWrapper) : string :=
  let importError := Importer_GetErrorString (importer this) in
  let exportError := Exporter_GetErrorString (exporter this) in
  if negb (empty importError) then "Import: " ++ importError
  else if negb (empty exportError) then "Export: " ++ exportError
  else EmptyString.

End Wrapper.
End Logged.

(** ** src/unnamed/part_000 *)

Module Plain.
Section Wrapper.
Context {L : Assimp}.

Record AssimpExportWrapper : Type := mkWrapper {
  importer : Importer;
  exporter : Exporter
}.

Definition State : Type := AssimpExportWrapper * Process.

(** The implicit default constructor. *)
Definition new : AssimpExportWrapper := mkWrapper Importer_new Exporter_new.

Definition importer_ReadFile (pFile : string) (pFlags : Z)
  : M State (option aiScene) :=
  fun '(this, p) =>
    let (imp', scene) := Importer_ReadFile (fs p) (importer this) pFile pFlags in
    (scene,
     (mkWrapper imp' (exporter this),
      mkProcess (fs p) (cout p) (push_back (calls p) (CallReadFile pFile pFlags)))).

Definition exporter_Export (pScene : aiScene) (pFormatId pPath : string)
  : M State aiReturn :=
  fun '(this, p) =>
    let '(fs', exp', r) :=
      Exporter_Export (fs p) (exporter this) pScene pFormatId pPath in
    (r,
     (mkWrapper (importer this) exp',
      mkProcess fs' (cout p) (push_back (calls p) (CallExport pScene pFormatId pPath)))).

(** [std::vector<std::string> getSupportedFormats()]. *)
Definition getSupportedFormats (this : AssimpExportWrapper)
  : option (list string) :=
  formats_loop (exporter this) 0 [].

Open Scope cpp_scope.

(** [bool usdzToObj(const std::string& usdzFile, const std::string& objFile)].
    The guard is [!scene || scene->mFlags & AI_SCENE_FLAGS_INCOMPLETE ||
    !scene->mRootNode], with [&] binding tighter than [||] and [||]
    evaluated left to right. *)
Definition usdzToObj (usdzFile objFile : string) : M State bool :=
  scene <- importer_ReadFile usdzFile
             (Z.lor (Z.lor (Z.lor aiProcess_Triangulate aiProcess_FlipUVs)
                           aiProcess_GenSmoothNormals)
                    aiProcess_JoinIdenticalVertices) ;;
  match scene with
  | None => ret false
  | Some scene =>
      if negb (Z.land (mFlags scene) AI_SCENE_FLAGS_INCOMPLETE =? 0)%Z
         || match mRootNode scene with None => true | Some _ => false end
      then ret false
      else
        result <- exporter_Export scene "obj" objFile ;;
        ret (aiReturn_eqb result AI_SUCCESS)
  end.

Close Scope cpp_scope.

(** [std::string getLastError()]. *)
Definition getLastError (this : AssimpExportWrapper) : string :=
  let importError := Importer_GetErrorString (importer this) in
  let exportError := Exporter_GetErrorString (exporter this) in
  if negb (empty importError) then "Import: " ++ importError
  else if negb (empty exportError) then "Export: " ++ exportError
  else EmptyString.

End Wrapper.
End Plain.

(** ** Vocabulary of the statements *)

Section Vocabulary.
Context {L : Assimp}.

(** The flag word both variants hand to [ReadFile]. *)
Definition import_flags : Z :=
  Z.lor (Z.lor (Z.lor aiProcess_Triangulate aiProcess_FlipUVs)
               aiProcess_GenSmoothNormals)
        aiProcess_JoinIdenticalVertices.

(** The library's answer to that import: the scene pointer, and the
    importer afterwards. *)
Definition imported (f : FileSystem) (imp : Importer) (usdzFile : string)
  : option aiScene :=
  snd (Importer_ReadFile f imp usdzFile import_flags).

Definition importer_after (f : FileSystem) (imp : Importer)
    (usdzFile : string) : Importer :=
  fst (Importer_ReadFile f imp usdzFile import_flags).

(** The library's answer to an export of [sc] to OBJ at [objFile]. *)
Definition exported (f : FileSystem) (e : Exporter) (sc : aiScene)
    (objFile : string) : aiReturn :=
  snd (Exporter_Export f e sc "obj" objFile).

Definition exporter_after (f : FileSystem) (e : Exporter) (sc : aiScene)
    (objFile : string) : Exporter :=
  snd (fst (Exporter_Export f e sc "obj" objFile)).

Definition files_after (f : FileSystem) (e : Exporter) (sc : aiScene)
    (objFile : string) : FileSystem :=
  fst (fst (Exporter_Export f e sc "obj" objFile)).

(** The scene carries the library's incomplete mark. *)
Definition incomplete (sc : aiScene) : Prop :=
  Z.land (mFlags sc) AI_SCENE_FLAGS_INCOMPLETE <> 0%Z.

(** The scene passes the adapter's three checks. *)
Definition usable (sc : aiScene) : bool :=
  (Z.land (mFlags sc) AI_SCENE_FLAGS_INCOMPLETE =? 0)%Z &&
  match mRootNode sc with Some _ => true | None => false end.

(** The verdict the adapter is to give on an import answer [scene] and
    an export answer [export]. *)
Definition verdict (scene : option aiScene) (export : aiScene -> aiReturn)
    (r : bool) : Prop :=
  (scene = None -> r = false) /\
  (forall sc, scene = Some sc -> incomplete sc -> r = false) /\
  (forall sc, scene = Some sc -> mRootNode sc = None -> r = false) /\
  (r = true <->
   exists sc, scene = Some sc /\ ~ incomplete sc /\
              mRootNode sc <> None /\ export sc = AI_SUCCESS).

(** The library calls [usdzToObj] is to make, in order. *)
Definition expected_calls (scene : option aiScene) (usdzFile objFile : string)
  : list LibCall :=
  CallReadFile usdzFile import_flags ::
  match scene with
  | Some sc => if usable sc then [CallExport sc "obj" objFile] else []
  | None => []
  end.

(** Forgetting the logging flag. *)
Definition forget (this : Logged.AssimpExportWrapper)
  : Plain.AssimpExportWrapper :=
  Plain.mkWrapper (Logged.importer this) (Logged.exporter this).

(** The library calls made between two points of a process. *)
Definition made (before after : Process) : list LibCall :=
  skipn (length (calls before)) (calls after).

(** The (path, flags) pairs of the import calls in a trace. *)
Fixpoint import_calls (cs : list LibCall) : list (string * Z) :=
  match cs with
  | [] => []
  | CallReadFile f fl :: cs' => (f, fl) :: import_calls cs'
  | CallExport _ _ _ :: cs' => import_calls cs'
  end.

(** The (format id, path) pairs of the export calls in a trace. *)
Fixpoint export_calls (cs : list LibCall) : list (string * string) :=
  match cs with
  | [] => []
  | CallReadFile _ _ :: cs' => export_calls cs'
  | CallExport _ fmt path :: cs' => (fmt, path) :: export_calls cs'
  end.

(** What a run of the logging variant shows apart from std::cout: the
    returned boolean, the two handles, the files, the library calls. *)
Definition observable (r : bool * Logged.State)
  : bool * Plain.AssimpExportWrapper * FileSystem * list LibCall :=
  (fst r, forget (fst (snd r)), fs (snd (snd r)), calls (snd (snd r))).

Definition plain_observable (r : bool * Plain.State)
  : bool * Plain.AssimpExportWrapper * FileSystem * list LibCall :=
  (fst r, fst (snd r), fs (snd (snd r)), calls (snd (snd r))).

(** The boolean the adapter is to return, as a function of the library's
    two answers. *)
Definition converts (f : FileSystem) (imp : Importer) (e : Exporter)
    (usdzFile objFile : string) : bool :=
  match imported f imp usdzFile with
  | Some sc => usable sc && aiReturn_eqb (exported f e sc objFile) AI_SUCCESS
  | None => false
  end.

(** Whether [usdzToObj] goes on to the export, given the import answer. *)
Definition export_attempted (scene : option aiScene) : bool :=
  match scene with
  | Some sc => usable sc
  | None => false
  end.

(** The text [getLastError] is to give for the two error strings. *)
Definition last_error (importError exportError r : string) : Prop :=
  (importError <> EmptyString -> r = "Import: " ++ importError) /\
  (importError = EmptyString -> exportError <> EmptyString ->
   r = "Export: " ++ exportError) /\
  (importError = EmptyString -> exportError = EmptyString ->
   r = EmptyString).

(** A descriptor with empty strings, to fill a list where the library
    gives none. *)
Definition no_desc : aiExportFormatDesc :=
  mkDesc EmptyString EmptyString EmptyString.

(** The descriptors at the indices below the count, in index order. *)
Definition descriptors (e : Exporter) : list aiExportFormatDesc :=
  map (fun i => match Exporter_GetExportFormatDescription e i with
                | Some d => d
                | None => no_desc
                end)
      (seq 0 (Exporter_GetExportFormatCount e)).

End Vocabulary.

(** ** Sessions: any sequence of calls of the three bound methods *)

Section Sessions.
Context {L : Assimp}.

Variant Op : Type :=
  | ListFormats
  | Convert (usdzFile objFile : string)
  | LastError.

Variant Answer : Type :=
  | Formats (v : option (list string))
  | Converted (b : bool)
  | ErrorText (s : string).

(** The answers to [ops], called one after the other on one adapter. *)
Fixpoint session (ops : list Op) (st : Logged.State) : list Answer :=
  match ops with
  | [] => []
  | ListFormats :: ops' =>
      Formats (Logged.getSupportedFormats (fst st)) :: session ops' st
  | Convert usdzFile objFile :: ops' =>
      let r := Logged.usdzToObj usdzFile objFile st in
      Converted (fst r) :: session ops' (snd r)
  | LastError :: ops' =>
      ErrorText (Logged.getLastError (fst st)) :: session ops' st
  end.

(** The format lists among the answers, in call order. *)
Fixpoint format_lists (answers : list Answer) : list (option (list string)) :=
  match answers with
  | [] => []
  | Formats v :: answers' => v :: format_lists answers'
  | _ :: answers' => format_lists answers'
  end.

Definition size (v : option (list string)) : nat :=
  match v with
  | Some l => length l
  | None => 0
  end.

(** "<non-empty-id> - <non-empty-description>". *)
Definition entry_pattern (s : string) : Prop :=
  exists i d : string,
    s = i ++ " - " ++ d /\ i <> EmptyString /\ d <> EmptyString.

End Sessions.

(** ** What the spec says of the wrapped library *)

Section Contracts.
Context {L : Assimp}.

(** Modelled from the spec: the import handle's answer to a path that
    names no file (Assimp's [Importer::ReadFile] is not in the
    repository).  The spec has the import call produce no scene for an
    input that cannot be read, and has the import handle's error string
    non-empty after it. *)
Definition missing_file_contract : Prop :=
  forall (f : FileSystem) (imp : Importer) (pFile : string) (pFlags : Z),
    file_exists f pFile = false ->
    snd (Importer_ReadFile f imp pFile pFlags) = None /\
    Importer_GetErrorString (fst (Importer_ReadFile f imp pFile pFlags))
      <> EmptyString.

(** Modelled from the spec: the two last-error strings of Assimp's
    handles (their code is not in the repository).  Both handles start in
    their empty state, and each operation overwrites the error string of
    its handle, so that none is left after an operation that succeeded: an
    import that yields a complete scene with a root node, an export that
    reports success. *)
Record error_state_contract : Prop := {
  fresh_importer : Importer_GetErrorString Importer_new = EmptyString;
  fresh_exporter : Exporter_GetErrorString Exporter_new = EmptyString;
  import_success_clears :
    forall f imp pFile pFlags sc,
      snd (Importer_ReadFile f imp pFile pFlags) = Some sc ->
      usable sc = true ->
      Importer_GetErrorString (fst (Importer_ReadFile f imp pFile pFlags))
        = EmptyString;
  export_success_clears :
    forall f e sc fmt path,
      snd (Exporter_Export f e sc fmt path) = AI_SUCCESS ->
      Exporter_GetErrorString (snd (fst (Exporter_Export f e sc fmt path)))
        = EmptyString
}.

(** Modelled from the spec: the entries of the registry (filled by
    Assimp, not by the repository).  Every index below the count has a
    descriptor (the pointer is not null) whose identifier and description
    are not empty. *)
Definition well_formed_registry (e : Exporter) : Prop :=
  forall i, i < Exporter_GetExportFormatCount e ->
    exists d, Exporter_GetExportFormatDescription e i = Some d /\
              id d <> EmptyString /\ description d <> EmptyString.

(** Modelled from the spec: the exporter's registry of formats (Assimp's
    [Exporter] is not in the repository).  The spec has one immutable
    (identifier, description) pair per format, in an order that is stable
    within a process: an export removes no format and leaves a well-formed
    registry well formed. *)
Record registry_contract : Prop := {
  export_keeps_count :
    forall f e sc fmt path,
      Exporter_GetExportFormatCount e <=
      Exporter_GetExportFormatCount (snd (fst (Exporter_Export f e sc fmt path)));
  export_keeps_registry :
    forall f e sc fmt path,
      well_formed_registry e ->
      well_formed_registry (snd (fst (Exporter_Export f e sc fmt path)))
}.

End Contracts.

(** ** An in-memory implementation of the interface

    Files are (path, content) pairs.  The importer remembers its last
    error; the exporter holds its registry and its last error.  The
    content of a file decides what the import yields, and the export
    writes to every path but those under [/nonexistent/].  The constants
    have the values of Assimp's headers. *)

Module Mock.

Definition Files : Type := list (string * string).

Fixpoint lookup (fs : Files) (p : string) : option string :=
  match fs with
  | [] => None
  | (q, c) :: fs' => if String.eqb p q then Some c else lookup fs' p
  end.

Record ExporterState : Type := mkExporter {
  registry : list aiExportFormatDesc;
  mError : string
}.

Definition complete_scene : aiScene :=
  mkScene 0 (Some (mkNode "root")) 1 1 0.
Definition incomplete_scene : aiScene :=
  mkScene 1 (Some (mkNode "root")) 0 0 0.
Definition rootless_scene : aiScene :=
  mkScene 0 None 1 1 0.

Definition ReadFile (fs : Files) (_ : string) (pFile : string) (_ : Z)
  : string * option aiScene :=
  match lookup fs pFile with
  | None => ("Unable to open file.", None)
  | Some c =>
      if String.eqb c "complete" then (EmptyString, Some complete_scene)
      else if String.eqb c "incomplete" then (EmptyString, Some incomplete_scene)
      else if String.eqb c "rootless" then (EmptyString, Some rootless_scene)
      else ("No suitable reader found for the file format.", None)
  end.

Definition Export (fs : Files) (e : ExporterState) (_ : aiScene)
    (pFormatId pPath : string) : Files * ExporterState * aiReturn :=
  if existsb (fun d => String.eqb (id d) pFormatId) (registry e) then
    if String.prefix "/nonexistent/" pPath
    then (fs, mkExporter (registry e) "Cannot open output file.",
          aiReturn_FAILURE)
    else ((pPath, "# obj") :: fs, mkExporter (registry e) EmptyString,
          aiReturn_SUCCESS)
  else (fs, mkExporter (registry e) "Found no exporter to handle this file format.",
        aiReturn_FAILURE).

Definition builtin : list aiExportFormatDesc :=
  [ mkDesc "collada" "COLLADA - Digital Asset Exchange Schema" "dae";
    mkDesc "obj" "Wavefront OBJ format" "obj";
    mkDesc "stl" "Stereolithography" "stl" ].

#[export] Instance assimp : Assimp := {|
  FileSystem := Files;
  Importer := string;
  Exporter := ExporterState;
  aiProcess_JoinIdenticalVertices := 0x2;
  aiProcess_Triangulate := 0x8;
  aiProcess_GenSmoothNormals := 0x40;
  aiProcess_FlipUVs := 0x800000;
  AI_SCENE_FLAGS_INCOMPLETE := 0x1;
  file_exists := fun fs p =>
    match lookup fs p with Some _ => true | None => false end;
  Importer_new := EmptyString;
  Importer_ReadFile := ReadFile;
  Importer_GetErrorString := fun imp => imp;
  Exporter_new := mkExporter builtin EmptyString;
  Exporter_GetExportFormatCount := fun e => length (registry e);
  Exporter_GetExportFormatDescription := fun e i => nth_error (registry e) i;
  Exporter_Export := Export;
  Exporter_GetErrorString := mError
|}.

Definition disk : Files :=
  [ ("model.usdz", "complete");
    ("partial.usdz", "incomplete");
    ("rootless.usdz", "rootless");
    ("notes.txt", "hello") ].

Definition boot : Process := mkProcess disk [] [].

(** A handle pair left over from an earlier export that failed. *)
Definition stale : @Logged.AssimpExportWrapper assimp :=
  @Logged.mkWrapper assimp EmptyString
    (mkExporter builtin "Cannot open output file.") false.

(** A session that lists the formats before and after conversions. *)
Definition calls_of : list Op :=
  [ ListFormats; Convert "model.usdz" "out.obj"; ListFormats;
    Convert "missing.usdz" "x.obj"; LastError; ListFormats ].

End Mock.

(** ** The same library with an importer that keeps its error text

    Here a successful import leaves the error string as it was, so that
    the text of an earlier failure outlives it. *)

Module Sticky.

Definition ReadFile (fs : Mock.Files) (imp : string) (pFile : string)
    (pFlags : Z) : string * option aiScene :=
  match Mock.ReadFile fs imp pFile pFlags with
  | (_, Some sc) => (imp, Some sc)
  | (err, None) => (err, None)
  end.

Definition assimp : Assimp := {|
  FileSystem := Mock.Files;
  Importer := string;
  Exporter := Mock.ExporterState;
  aiProcess_JoinIdenticalVertices := 0x2;
  aiProcess_Triangulate := 0x8;
  aiProcess_GenSmoothNormals := 0x40;
  aiProcess_FlipUVs := 0x800000;
  AI_SCENE_FLAGS_INCOMPLETE := 0x1;
  file_exists := fun fs p =>
    match Mock.lookup fs p with Some _ => true | None => false end;
  Importer_new := EmptyString;
  Importer_ReadFile := ReadFile;
  Importer_GetErrorString := fun imp => imp;
  Exporter_new := Mock.mkExporter Mock.builtin EmptyString;
  Exporter_GetExportFormatCount := fun e => length (Mock.registry e);
  Exporter_GetExportFormatDescription :=
    fun e i => nth_error (Mock.registry e) i;
  Exporter_Export := Mock.Export;
  Exporter_GetErrorString := Mock.mError
|}.

Definition boot : @Process assimp := @mkProcess assimp Mock.disk [] [].

(** The adapter after a conversion of a path that names no file. *)
Definition after_failure : @Logged.State assimp :=
  snd (@Logged.usdzToObj assimp "missing.usdz" "a.obj"
         (@Logged.new assimp false boot)).

End Sticky.

(** ** More vocabulary: whole sessions and the lines on std::cout *)

Section SessionEnds.
Context {L : Assimp}.

(** The adapter and the process after the calls [ops]. *)
Fixpoint session_end (ops : list Op) (st : Logged.State) : Logged.State :=
  match ops with
  | [] => st
  | Convert usdzFile objFile :: ops' =>
      session_end ops' (snd (Logged.usdzToObj usdzFile objFile st))
  | _ :: ops' => session_end ops' st
  end.

(** The answers of the plain variant to [ops]. *)
Fixpoint plain_session (ops : list Op) (st : Plain.State) : list Answer :=
  match ops with
  | [] => []
  | ListFormats :: ops' =>
      Formats (Plain.getSupportedFormats (fst st)) :: plain_session ops' st
  | Convert usdzFile objFile :: ops' =>
      let r := Plain.usdzToObj usdzFile objFile st in
      Converted (fst r) :: plain_session ops' (snd r)
  | LastError :: ops' =>
      ErrorText (Plain.getLastError (fst st)) :: plain_session ops' st
  end.

(** The (input, output) paths of the conversions asked for, in order. *)
Fixpoint conversions (ops : list Op) : list (string * string) :=
  match ops with
  | [] => []
  | Convert usdzFile objFile :: ops' => (usdzFile, objFile) :: conversions ops'
  | _ :: ops' => conversions ops'
  end.



End SessionEnds.

(** * Proofs *)

(** ** Boolean tests and their meaning *)

Section Tests.
Context {L : Assimp}.

Lemma usable_spec (sc : aiScene) :
  usable sc = true <-> ~ incomplete sc /\ mRootNode sc <> None.
Proof.
  unfold usable, incomplete.
  rewrite andb_true_iff, Z.eqb_eq.
  destruct (mRootNode sc); split; intros [H1 H2]; split;
    try congruence; try lia; try discriminate.
Qed.

Lemma empty_spec (s : string) : empty s = true <-> s = EmptyString.
Proof. destruct s; simpl; split; congruence. Qed.

Lemma aiReturn_eqb_spec (a b : aiReturn) : aiReturn_eqb a b = true <-> a = b.
Proof. destruct a, b; simpl; split; congruence. Qed.

Lemma prefix_append (s t : string) : String.prefix s (s ++ t) = true.
Proof.
  induction s as [|a s IH]; simpl.
  - destruct t; reflexivity.
  - destruct (ascii_dec a a); [exact IH | congruence].
Qed.

End Tests.

(** ** The plain variant, step by step *)

Section PlainRun.
Context {L : Assimp}.
Variables (this : Plain.AssimpExportWrapper) (p : Process).
Variables (usdzFile objFile : string).

Let scene := imported (fs p) (Plain.importer this) usdzFile.
Let imp' := importer_after (fs p) (Plain.importer this) usdzFile.

(** The run of [usdzToObj], written out: the import always happens; the
    export happens exactly when the scene is usable. *)
Lemma plain_usdzToObj_run :
  Plain.usdzToObj usdzFile objFile (this, p) =
  match scene with
  | Some sc =>
      if usable sc then
        (aiReturn_eqb (exported (fs p) (Plain.exporter this) sc objFile) AI_SUCCESS,
         (Plain.mkWrapper imp'
            (exporter_after (fs p) (Plain.exporter this) sc objFile),
          mkProcess (files_after (fs p) (Plain.exporter this) sc objFile)
            (cout p)
            (calls p ++ expected_calls scene usdzFile objFile)%list))
      else
        (false,
         (Plain.mkWrapper imp' (Plain.exporter this),
          mkProcess (fs p) (cout p)
            (calls p ++ expected_calls scene usdzFile objFile)%list))
  | None =>
      (false,
       (Plain.mkWrapper imp' (Plain.exporter this),
        mkProcess (fs p) (cout p)
          (calls p ++ expected_calls scene usdzFile objFile)%list))
  end.
Proof.
  subst scene imp'.
  unfold Plain.usdzToObj, bind, Plain.importer_ReadFile, expected_calls,
    imported, importer_after, import_flags.
  destruct (Importer_ReadFile _ _ _ _) as [i [sc|]]; simpl; [|reflexivity].
  unfold usable.
  destruct (Z.land _ _ =? 0)%Z; simpl; [|reflexivity].
  destruct (mRootNode sc); simpl; [|reflexivity].
  unfold bind, Plain.exporter_Export, exported, exporter_after, files_after.
  destruct (Exporter_Export _ _ _ _ _) as [[f e] r]; simpl.
  unfold push_back. rewrite <- app_assoc. reflexivity.
Qed.

End PlainRun.

(** ** The logging variant against the plain one *)

Section LoggedRun.
Context {L : Assimp}.

(** A run of the logging variant is a run of the plain variant on the
    same handles, with the flag carried along and some lines appended to
    std::cout; none when the flag is off. *)
Lemma logged_usdzToObj_run (this : Logged.AssimpExportWrapper) (p : Process)
    (usdzFile objFile : string) :
  exists lines : list string,
    Logged.usdzToObj usdzFile objFile (this, p) =
    (let '(r, (this0, p0)) := Plain.usdzToObj usdzFile objFile (forget this, p) in
     (r, (Logged.mkWrapper (Plain.importer this0) (Plain.exporter this0)
            (Logged.enable_logging this),
          mkProcess (fs p0) (cout p ++ lines)%list (calls p0))))
    /\ (Logged.enable_logging this = false -> lines = []).
Proof.
  destruct this as [imp e lg], p as [f out cs].
  unfold Logged.usdzToObj, Plain.usdzToObj, forget, bind, ret, Logged.log,
    Logged.importer_ReadFile, Plain.importer_ReadFile,
    Logged.importer_GetErrorString, Logged.exporter_GetErrorString,
    Logged.exporter_Export, Plain.exporter_Export, push_back.
  cbn [Logged.importer Logged.exporter Logged.enable_logging
       Plain.importer Plain.exporter fs cout calls].
  destruct lg; simpl;
    (destruct (Importer_ReadFile f imp usdzFile _) as [i [sc|]]; simpl;
     [ destruct (Z.land (mFlags sc) AI_SCENE_FLAGS_INCOMPLETE =? 0)%Z; simpl;
       [ destruct (mRootNode sc); simpl;
         [ destruct (Exporter_Export f e sc "obj" objFile) as [[f' e'] r];
           destruct r; simpl | ] | ] | ]);
    repeat rewrite <- app_assoc; simpl;
    try (eexists; split; [reflexivity | discriminate]);
    (exists []; rewrite app_nil_r; split; reflexivity).
Qed.

End LoggedRun.

(** ** Observations on a run *)

Section Observations.
Context {L : Assimp}.

Lemma made_app (p p' : Process) (cs : list LibCall) :
  calls p' = (calls p ++ cs)%list -> made p p' = cs.
Proof.
  intros H. unfold made. rewrite H.
  rewrite skipn_app, skipn_all, Nat.sub_diag. reflexivity.
Qed.

Lemma plain_result (this : Plain.AssimpExportWrapper) (p : Process)
    (usdzFile objFile : string) :
  fst (Plain.usdzToObj usdzFile objFile (this, p)) =
  converts (fs p) (Plain.importer this) (Plain.exporter this) usdzFile objFile.
Proof.
  rewrite plain_usdzToObj_run. unfold converts.
  destruct (imported _ _ _) as [sc|]; [|reflexivity].
  destruct (usable sc); reflexivity.
Qed.

Lemma plain_made (this : Plain.AssimpExportWrapper) (p : Process)
    (usdzFile objFile : string) :
  made p (snd (snd (Plain.usdzToObj usdzFile objFile (this, p)))) =
  expected_calls (imported (fs p) (Plain.importer this) usdzFile)
    usdzFile objFile.
Proof.
  apply made_app. rewrite plain_usdzToObj_run.
  destruct (imported _ _ _) as [sc|]; [|reflexivity].
  destruct (usable sc); reflexivity.
Qed.

Lemma logged_observable (this : Logged.AssimpExportWrapper) (p : Process)
    (usdzFile objFile : string) :
  observable (Logged.usdzToObj usdzFile objFile (this, p)) =
  plain_observable (Plain.usdzToObj usdzFile objFile (forget this, p)).
Proof.
  destruct (logged_usdzToObj_run this p usdzFile objFile) as [lines [H _]].
  rewrite H.
  destruct (Plain.usdzToObj usdzFile objFile (forget this, p))
    as [r [[i e] p0]].
  reflexivity.
Qed.

Lemma logged_result (this : Logged.AssimpExportWrapper) (p : Process)
    (usdzFile objFile : string) :
  fst (Logged.usdzToObj usdzFile objFile (this, p)) =
  converts (fs p) (Logged.importer this) (Logged.exporter this)
    usdzFile objFile.
Proof.
  pose proof (logged_observable this p usdzFile objFile) as H.
  unfold observable, plain_observable in H.
  injection H as H _ _ _. rewrite H, plain_result. reflexivity.
Qed.

Lemma logged_made (this : Logged.AssimpExportWrapper) (p : Process)
    (usdzFile objFile : string) :
  made p (snd (snd (Logged.usdzToObj usdzFile objFile (this, p)))) =
  expected_calls (imported (fs p) (Logged.importer this) usdzFile)
    usdzFile objFile.
Proof.
  pose proof (logged_observable this p usdzFile objFile) as H.
  unfold observable, plain_observable in H.
  injection H as _ _ _ H. unfold made at 1. rewrite H.
  apply (plain_made (forget this)).
Qed.

Lemma verdict_converts (f : FileSystem) (imp : Importer) (e : Exporter)
    (usdzFile objFile : string) :
  verdict (imported f imp usdzFile) (fun sc => exported f e sc objFile)
    (converts f imp e usdzFile objFile).
Proof.
  unfold verdict, converts.
  destruct (imported f imp usdzFile) as [sc|].
  - repeat split.
    + discriminate.
    + intros sc' [= <-] Hinc.
      destruct (usable sc) eqn:U; [|reflexivity].
      apply usable_spec in U. tauto.
    + intros sc' [= <-] Hroot.
      destruct (usable sc) eqn:U; [|reflexivity].
      apply usable_spec in U. tauto.
    + intros H. apply andb_true_iff in H as [U R].
      apply usable_spec in U. apply aiReturn_eqb_spec in R.
      exists sc. tauto.
    + intros [sc' [[= <-] [Hc [Hr Hx]]]].
      apply andb_true_iff. split.
      * apply usable_spec. tauto.
      * apply aiReturn_eqb_spec. exact Hx.
  - repeat split; try reflexivity; try discriminate.
    intros [sc' [H _]]. discriminate.
Qed.

End Observations.
(** ** The loop of getSupportedFormats *)

Section Loop.
Context {L : Assimp}.
Variable e : Exporter.

(** One turn of the loop, as the source reads. *)
Lemma formats_loop_turn (i : nat) (formats : list string) :
  formats_loop e i formats =
  if lt_dec i (Exporter_GetExportFormatCount e) then
    match Exporter_GetExportFormatDescription e i with
    | Some desc => formats_loop e (S i) (push_back formats (format_entry desc))
    | None => None
    end
  else Some formats.
Proof.
  rewrite formats_loop_equation_1.
  destruct (lt_dec i (Exporter_GetExportFormatCount e)); simpl; [|reflexivity].
  destruct (Exporter_GetExportFormatDescription e i); reflexivity.
Qed.

(** From index [i] on, with the descriptors [ds] at the indices left, the
    loop appends their entries in index order and stops at the count. *)
Lemma formats_loop_descriptors (ds : list aiExportFormatDesc) :
  forall (i : nat) (formats : list string),
    i + length ds = Exporter_GetExportFormatCount e ->
    (forall j, j < length ds ->
       Exporter_GetExportFormatDescription e (i + j) = nth_error ds j) ->
    formats_loop e i formats = Some (formats ++ map format_entry ds)%list.
Proof.
  induction ds as [|d ds IH]; intros i formats Hlen Hds;
    rewrite formats_loop_turn; simpl in Hlen.
  - destruct (lt_dec i (Exporter_GetExportFormatCount e)); [lia|].
    simpl. rewrite app_nil_r. reflexivity.
  - destruct (lt_dec i (Exporter_GetExportFormatCount e)); [|lia].
    pose proof (Hds 0 (Nat.lt_0_succ _)) as H0.
    rewrite Nat.add_0_r in H0. simpl in H0. rewrite H0.
    rewrite IH.
    + unfold push_back. rewrite <- app_assoc. reflexivity.
    + lia.
    + intros j Hj. replace (S i + j) with (i + S j) by lia.
      apply (Hds (S j)). simpl. lia.
Qed.

(** A null descriptor below the count stops the loop at the dereference. *)
Lemma formats_loop_null (n : nat) :
  forall (i : nat) (formats : list string),
    n = Exporter_GetExportFormatCount e - i ->
    (exists j, i <= j < Exporter_GetExportFormatCount e /\
               Exporter_GetExportFormatDescription e j = None) ->
    formats_loop e i formats = None.
Proof.
  induction n as [|n IH]; intros i formats Hn [j [Hj Hnull]].
  - lia.
  - rewrite formats_loop_turn.
    destruct (lt_dec i (Exporter_GetExportFormatCount e)); [|lia].
    destruct (Exporter_GetExportFormatDescription e i) eqn:Hi; [|reflexivity].
    apply IH; [lia|].
    exists j. split; [|exact Hnull].
    assert (i <> j) by congruence. lia.
Qed.

End Loop.

(** ** The traces of a run *)

Section Traces.
Context {L : Assimp}.

Lemma import_calls_expected (scene : option aiScene) (usdzFile objFile : string) :
  import_calls (expected_calls scene usdzFile objFile) =
  [(usdzFile, import_flags)].
Proof.
  unfold expected_calls. destruct scene as [sc|]; [|reflexivity].
  destruct (usable sc); reflexivity.
Qed.

Lemma export_calls_expected (scene : option aiScene) (usdzFile objFile : string) :
  export_calls (expected_calls scene usdzFile objFile) =
  if export_attempted scene then [("obj", objFile)] else [].
Proof.
  unfold expected_calls, export_attempted.
  destruct scene as [sc|]; [|reflexivity].
  destruct (usable sc); reflexivity.
Qed.

Lemma last_error_text (importError exportError : string) :
  last_error importError exportError
    (if negb (empty importError) then "Import: " ++ importError
     else if negb (empty exportError) then "Export: " ++ exportError
     else EmptyString).
Proof.
  unfold last_error.
  destruct importError, exportError; simpl; repeat split; congruence.
Qed.

End Traces.

(** ** The adapter's contract *)

Section Adapter.
Context {L : Assimp}.

(** C1. [usdzToObj] returns false when the import call produces no scene,
    when the scene carries the incomplete mark and when it has no root
    node; it returns true exactly when the import passed these checks and
    the export of that scene to OBJ at the output path reports success.
    Both variants. *)
Theorem usdzToObj_verdict :
  (forall (this : Logged.AssimpExportWrapper) (p : Process)
          (usdzFile objFile : string),
      verdict (imported (fs p) (Logged.importer this) usdzFile)
        (fun sc => exported (fs p) (Logged.exporter this) sc objFile)
        (fst (Logged.usdzToObj usdzFile objFile (this, p)))) /\
  (forall (this : Plain.AssimpExportWrapper) (p : Process)
          (usdzFile objFile : string),
      verdict (imported (fs p) (Plain.importer this) usdzFile)
        (fun sc => exported (fs p) (Plain.exporter this) sc objFile)
        (fst (Plain.usdzToObj usdzFile objFile (this, p)))).
Proof.
  split; intros this p usdzFile objFile.
  - rewrite logged_result. apply verdict_converts.
  - rewrite plain_result. apply verdict_converts.
Qed.

(** C2. [getLastError] gives the importer's error string after "Import: "
    when that string is not empty, whatever the exporter's; else the
    exporter's after "Export: " when that one is not empty; else the empty
    string.  Both variants. *)
Theorem getLastError_precedence :
  (forall this : Logged.AssimpExportWrapper,
      last_error (Importer_GetErrorString (Logged.importer this))
        (Exporter_GetErrorString (Logged.exporter this))
        (Logged.getLastError this)) /\
  (forall this : Plain.AssimpExportWrapper,
      last_error (Importer_GetErrorString (Plain.importer this))
        (Exporter_GetErrorString (Plain.exporter this))
        (Plain.getLastError this)).
Proof.
  split; intros this; apply last_error_text.
Qed.

(** C3. When the library answers the indices below its count with the
    descriptors [ds], [getSupportedFormats] returns, in index order, one
    string per descriptor: identifier, " - ", description.  With a count
    of zero it returns the empty sequence.  Both variants. *)
Theorem getSupportedFormats_entries
    (this : Logged.AssimpExportWrapper) (ds : list aiExportFormatDesc) :
  length ds = Exporter_GetExportFormatCount (Logged.exporter this) ->
  (forall i, i < length ds ->
     Exporter_GetExportFormatDescription (Logged.exporter this) i =
     nth_error ds i) ->
  Logged.getSupportedFormats this =
    Some (map (fun d => id d ++ " - " ++ description d) ds) /\
  Plain.getSupportedFormats (forget this) =
    Some (map (fun d => id d ++ " - " ++ description d) ds) /\
  (Exporter_GetExportFormatCount (Logged.exporter this) = 0 ->
   Logged.getSupportedFormats this = Some [] /\
   Plain.getSupportedFormats (forget this) = Some []).
Proof.
  intros Hlen Hds.
  assert (H : formats_loop (Logged.exporter this) 0 [] =
              Some (map format_entry ds)).
  { apply (formats_loop_descriptors (Logged.exporter this) ds 0 []);
      [exact Hlen | exact Hds]. }
  unfold Logged.getSupportedFormats, Plain.getSupportedFormats, forget.
  cbn [Plain.exporter].
  split; [exact H | split; [exact H |]].
  intros Hzero. rewrite Hzero in Hlen.
  apply length_zero_iff_nil in Hlen. subst ds. split; exact H.
Qed.

(** C4. Every run of [usdzToObj] makes exactly one import call, on the
    input path, with the flag word made of the four options: a bit is set
    in it exactly when it is set in Triangulate, FlipUVs, GenSmoothNormals
    or JoinIdenticalVertices.  No argument and no state of the adapter
    enters the flag word.  Both variants. *)
Theorem import_options_fixed :
  (forall (this : Logged.AssimpExportWrapper) (p : Process)
          (usdzFile objFile : string),
      import_calls
        (made p (snd (snd (Logged.usdzToObj usdzFile objFile (this, p))))) =
      [(usdzFile, import_flags)]) /\
  (forall (this : Plain.AssimpExportWrapper) (p : Process)
          (usdzFile objFile : string),
      import_calls
        (made p (snd (snd (Plain.usdzToObj usdzFile objFile (this, p))))) =
      [(usdzFile, import_flags)]) /\
  (forall n : Z,
      Z.testbit import_flags n =
      Z.testbit aiProcess_Triangulate n || Z.testbit aiProcess_FlipUVs n ||
      Z.testbit aiProcess_GenSmoothNormals n ||
      Z.testbit aiProcess_JoinIdenticalVertices n).
Proof.
  repeat split.
  - intros. rewrite logged_made. apply import_calls_expected.
  - intros. rewrite plain_made. apply import_calls_expected.
  - intros n. unfold import_flags. rewrite !Z.lor_spec. reflexivity.
Qed.

(** C5. Two runs of [usdzToObj] that differ only in the logging flag
    return the same boolean, make the same library calls in the same
    order, and leave the same handles and the same files. *)
Theorem logging_is_observational
    (imp : Importer) (e : Exporter) (lg1 lg2 : bool) (p : Process)
    (usdzFile objFile : string) :
  observable (Logged.usdzToObj usdzFile objFile
                (Logged.mkWrapper imp e lg1, p)) =
  observable (Logged.usdzToObj usdzFile objFile
                (Logged.mkWrapper imp e lg2, p)).
Proof.
  rewrite !logged_observable. reflexivity.
Qed.

(** C9. On the same handles and files, the logging variant and the plain
    variant of [usdzToObj] return the same boolean, make the same library
    calls and leave the same handles and files; the plain variant writes
    nothing, the logging variant nothing when its flag is off.
    [getSupportedFormats] and [getLastError] give the same answers in
    both, and both constructors start from the same handles. *)
Theorem variants_equivalent :
  (forall (this : Logged.AssimpExportWrapper) (p : Process)
          (usdzFile objFile : string),
      observable (Logged.usdzToObj usdzFile objFile (this, p)) =
      plain_observable (Plain.usdzToObj usdzFile objFile (forget this, p)) /\
      cout (snd (snd (Plain.usdzToObj usdzFile objFile (forget this, p)))) =
      cout p /\
      (Logged.enable_logging this = false ->
       cout (snd (snd (Logged.usdzToObj usdzFile objFile (this, p)))) =
       cout p)) /\
  (forall this : Logged.AssimpExportWrapper,
      Logged.getSupportedFormats this =
      Plain.getSupportedFormats (forget this)) /\
  (forall this : Logged.AssimpExportWrapper,
      Logged.getLastError this = Plain.getLastError (forget this)) /\
  (forall (enableLogging : bool) (p : Process),
      forget (fst (Logged.new enableLogging p)) = Plain.new).
Proof.
  repeat split.
  - apply logged_observable.
  - rewrite plain_usdzToObj_run.
    destruct (imported _ _ _) as [sc|]; [|reflexivity].
    destruct (usable sc); reflexivity.
  - intros Hoff.
    destruct (logged_usdzToObj_run this p usdzFile objFile)
      as [lines [H Hlines]].
    rewrite H, (Hlines Hoff).
    destruct (Plain.usdzToObj usdzFile objFile (forget this, p))
      as [r [this0 p0]].
    simpl. apply app_nil_r.
  - destruct enableLogging; reflexivity.
Qed.

(** C10. The export call of [usdzToObj], when the run reaches it, names
    the format "obj" and the output path; whether the run reaches it
    depends on the import answer alone, so that the output path never
    enters the choice of the format.  Both variants. *)
Theorem export_format_is_obj :
  (forall (this : Logged.AssimpExportWrapper) (p : Process)
          (usdzFile objFile : string),
      export_calls
        (made p (snd (snd (Logged.usdzToObj usdzFile objFile (this, p))))) =
      if export_attempted (imported (fs p) (Logged.importer this) usdzFile)
      then [("obj", objFile)] else []) /\
  (forall (this : Plain.AssimpExportWrapper) (p : Process)
          (usdzFile objFile : string),
      export_calls
        (made p (snd (snd (Plain.usdzToObj usdzFile objFile (this, p))))) =
      if export_attempted (imported (fs p) (Plain.importer this) usdzFile)
      then [("obj", objFile)] else []).
Proof.
  split; intros.
  - rewrite logged_made. apply export_calls_expected.
  - rewrite plain_made. apply export_calls_expected.
Qed.

End Adapter.

(** ** The handles after a run *)

Section Handles.
Context {L : Assimp}.

Lemma plain_handles_after (this : Plain.AssimpExportWrapper) (p : Process)
    (usdzFile objFile : string) :
  fst (snd (Plain.usdzToObj usdzFile objFile (this, p))) =
  Plain.mkWrapper
    (importer_after (fs p) (Plain.importer this) usdzFile)
    (match imported (fs p) (Plain.importer this) usdzFile with
     | Some sc =>
         if usable sc
         then exporter_after (fs p) (Plain.exporter this) sc objFile
         else Plain.exporter this
     | None => Plain.exporter this
     end).
Proof.
  rewrite plain_usdzToObj_run.
  destruct (imported _ _ _) as [sc|]; [|reflexivity].
  destruct (usable sc); reflexivity.
Qed.

Lemma logged_handles_after (this : Logged.AssimpExportWrapper) (p : Process)
    (usdzFile objFile : string) :
  forget (fst (snd (Logged.usdzToObj usdzFile objFile (this, p)))) =
  fst (snd (Plain.usdzToObj usdzFile objFile (forget this, p))).
Proof.
  pose proof (logged_observable this p usdzFile objFile) as H.
  unfold observable, plain_observable in H.
  injection H as _ H _ _. exact H.
Qed.

Lemma getLastError_forget (this : Logged.AssimpExportWrapper) :
  Logged.getLastError this = Plain.getLastError (forget this).
Proof. reflexivity. Qed.

(** After a run on a path for which the import gave no scene and left an
    error text, [getLastError] is that text behind "Import: ". *)
Lemma plain_import_failure (this : Plain.AssimpExportWrapper) (p : Process)
    (usdzFile objFile : string) :
  imported (fs p) (Plain.importer this) usdzFile = None ->
  Importer_GetErrorString
    (importer_after (fs p) (Plain.importer this) usdzFile) <> EmptyString ->
  fst (Plain.usdzToObj usdzFile objFile (this, p)) = false /\
  Plain.getLastError (fst (snd (Plain.usdzToObj usdzFile objFile (this, p)))) =
  "Import: " ++
  Importer_GetErrorString (importer_after (fs p) (Plain.importer this) usdzFile).
Proof.
  intros Hnone Herr. split.
  - rewrite plain_result. unfold converts. rewrite Hnone. reflexivity.
  - rewrite plain_handles_after. unfold Plain.getLastError.
    cbn [Plain.importer Plain.exporter].
    destruct (Importer_GetErrorString _); [congruence | reflexivity].
Qed.

(** After a run that returned true, both error strings are those the
    library left after a successful import and a successful export. *)
Lemma plain_success (this : Plain.AssimpExportWrapper) (p : Process)
    (usdzFile objFile : string) :
  fst (Plain.usdzToObj usdzFile objFile (this, p)) = true ->
  exists sc,
    imported (fs p) (Plain.importer this) usdzFile = Some sc /\
    usable sc = true /\
    exported (fs p) (Plain.exporter this) sc objFile = AI_SUCCESS /\
    fst (snd (Plain.usdzToObj usdzFile objFile (this, p))) =
    Plain.mkWrapper
      (importer_after (fs p) (Plain.importer this) usdzFile)
      (exporter_after (fs p) (Plain.exporter this) sc objFile).
Proof.
  rewrite plain_result, plain_handles_after. unfold converts.
  destruct (imported _ _ _) as [sc|]; [|discriminate].
  intros H. apply andb_true_iff in H as [U R].
  exists sc. rewrite U. apply aiReturn_eqb_spec in R. auto.
Qed.

End Handles.

(** ** Error reporting, on the library's contract *)

Section Errors.
Context {L : Assimp}.

(** C6. On a library that answers a missing file with no scene and an
    error text, a run of [usdzToObj] on an input path that names no file
    returns false, and [getLastError] right after it is not empty and
    starts with "Import: ", whatever the handles held before.  Both
    variants. *)
Theorem missing_input_reported
    (HC : missing_file_contract)
    (this : Logged.AssimpExportWrapper) (p : Process)
    (usdzFile objFile : string)
    (Hmissing : file_exists (fs p) usdzFile = false) :
  (fst (Logged.usdzToObj usdzFile objFile (this, p)) = false /\
   Logged.getLastError
     (fst (snd (Logged.usdzToObj usdzFile objFile (this, p)))) <> EmptyString /\
   String.prefix "Import: "
     (Logged.getLastError
        (fst (snd (Logged.usdzToObj usdzFile objFile (this, p))))) = true) /\
  (fst (Plain.usdzToObj usdzFile objFile (forget this, p)) = false /\
   Plain.getLastError
     (fst (snd (Plain.usdzToObj usdzFile objFile (forget this, p)))) <> EmptyString /\
   String.prefix "Import: "
     (Plain.getLastError
        (fst (snd (Plain.usdzToObj usdzFile objFile (forget this, p))))) = true).
Proof.
  destruct (HC (fs p) (Logged.importer this) usdzFile import_flags Hmissing)
    as [Hnone Herr].
  destruct (plain_import_failure (forget this) p usdzFile objFile Hnone Herr)
    as [Hr He].
  assert (Hplain :
    fst (Plain.usdzToObj usdzFile objFile (forget this, p)) = false /\
    Plain.getLastError
      (fst (snd (Plain.usdzToObj usdzFile objFile (forget this, p)))) <> EmptyString /\
    String.prefix "Import: "
      (Plain.getLastError
         (fst (snd (Plain.usdzToObj usdzFile objFile (forget this, p))))) = true).
  { rewrite He. repeat split; [exact Hr | discriminate | apply prefix_append]. }
  split; [|exact Hplain].
  rewrite getLastError_forget, logged_handles_after.
  pose proof (logged_observable this p usdzFile objFile) as H.
  unfold observable, plain_observable in H. injection H as H _ _ _.
  rewrite H. exact Hplain.
Qed.

(** C7. On a library whose handles start without an error and hold none
    after an operation that succeeded, [getLastError] is empty on a newly
    constructed adapter, and empty right after a run of [usdzToObj] that
    returned true, whatever the handles held before.  Both variants. *)
Theorem no_error_when_fresh_or_successful (HC : error_state_contract) :
  (forall (enableLogging : bool) (p : Process),
      Logged.getLastError (fst (Logged.new enableLogging p)) = EmptyString) /\
  Plain.getLastError Plain.new = EmptyString /\
  (forall (this : Logged.AssimpExportWrapper) (p : Process)
          (usdzFile objFile : string),
      fst (Logged.usdzToObj usdzFile objFile (this, p)) = true ->
      Logged.getLastError
        (fst (snd (Logged.usdzToObj usdzFile objFile (this, p)))) = EmptyString) /\
  (forall (this : Plain.AssimpExportWrapper) (p : Process)
          (usdzFile objFile : string),
      fst (Plain.usdzToObj usdzFile objFile (this, p)) = true ->
      Plain.getLastError
        (fst (snd (Plain.usdzToObj usdzFile objFile (this, p)))) = EmptyString).
Proof.
  assert (Hfresh : Plain.getLastError Plain.new = EmptyString).
  { unfold Plain.getLastError, Plain.new. cbn [Plain.importer Plain.exporter].
    rewrite (fresh_importer HC), (fresh_exporter HC). reflexivity. }
  assert (Hplain :
    forall (this : Plain.AssimpExportWrapper) (p : Process)
           (usdzFile objFile : string),
      fst (Plain.usdzToObj usdzFile objFile (this, p)) = true ->
      Plain.getLastError
        (fst (snd (Plain.usdzToObj usdzFile objFile (this, p)))) = EmptyString).
  { intros this p usdzFile objFile Htrue.
    destruct (plain_success this p usdzFile objFile Htrue)
      as [sc [Hsc [U [X Hpost]]]].
    rewrite Hpost. unfold Plain.getLastError.
    cbn [Plain.importer Plain.exporter].
    unfold importer_after, exporter_after.
    rewrite (import_success_clears HC _ _ _ _ sc Hsc U).
    rewrite (export_success_clears HC _ _ _ _ _ X). reflexivity. }
  split; [|split; [exact Hfresh | split; [|exact Hplain]]].
  - intros enableLogging p. rewrite getLastError_forget.
    destruct enableLogging; exact Hfresh.
  - intros this p usdzFile objFile Htrue.
    rewrite getLastError_forget, logged_handles_after.
    apply Hplain.
    pose proof (logged_observable this p usdzFile objFile) as H.
    unfold observable, plain_observable in H. injection H as H _ _ _.
    rewrite <- H. exact Htrue.
Qed.

End Errors.

(** ** The format list over a session, on the library's contract *)

Section Registry.
Context {L : Assimp}.

Lemma descriptors_length (e : Exporter) :
  length (descriptors e) = Exporter_GetExportFormatCount e.
Proof. unfold descriptors. rewrite length_map, length_seq. reflexivity. Qed.

Lemma descriptors_nth (e : Exporter) (i : nat) :
  well_formed_registry e ->
  i < Exporter_GetExportFormatCount e ->
  Exporter_GetExportFormatDescription e i = nth_error (descriptors e) i.
Proof.
  intros Hwf Hi. destruct (Hwf i Hi) as [d [Hd _]].
  unfold descriptors.
  rewrite nth_error_map, nth_error_seq.
  destruct (Nat.ltb_spec i (Exporter_GetExportFormatCount e)); [|lia].
  simpl. rewrite Hd. reflexivity.
Qed.

Lemma descriptors_named (e : Exporter) :
  well_formed_registry e ->
  Forall (fun d => id d <> EmptyString /\ description d <> EmptyString)
    (descriptors e).
Proof.
  intros Hwf. apply Forall_forall. intros d Hin.
  unfold descriptors in Hin. apply in_map_iff in Hin as [i [Hd Hi]].
  apply in_seq in Hi. destruct (Hwf i) as [d' [Hd' Hne]]; [lia|].
  rewrite Hd' in Hd. subst d'. exact Hne.
Qed.

(** On a well-formed registry the loop ends with one entry per format,
    each of the pattern. *)
Lemma well_formed_formats (e : Exporter) :
  well_formed_registry e ->
  exists l, formats_loop e 0 [] = Some l /\
            length l = Exporter_GetExportFormatCount e /\
            Forall entry_pattern l.
Proof.
  intros Hwf. exists (map format_entry (descriptors e)). repeat split.
  - apply (formats_loop_descriptors e (descriptors e) 0 []).
    + apply descriptors_length.
    + intros j Hj. rewrite descriptors_length in Hj.
      apply descriptors_nth; assumption.
  - rewrite length_map. apply descriptors_length.
  - apply Forall_map.
    eapply Forall_impl; [|apply descriptors_named; exact Hwf].
    intros d [Hi Hd]. exists (id d), (description d). auto.
Qed.

(** The exporter after a run is the one before, or the one an export to
    OBJ left. *)
Lemma logged_exporter_after (this : Logged.AssimpExportWrapper) (p : Process)
    (usdzFile objFile : string) :
  Logged.exporter (fst (snd (Logged.usdzToObj usdzFile objFile (this, p)))) =
    Logged.exporter this \/
  exists sc,
    Logged.exporter (fst (snd (Logged.usdzToObj usdzFile objFile (this, p)))) =
    exporter_after (fs p) (Logged.exporter this) sc objFile.
Proof.
  pose proof (logged_handles_after this p usdzFile objFile) as H.
  rewrite plain_handles_after in H. unfold forget in H.
  injection H as _ H. rewrite H. cbn [Plain.exporter Plain.importer].
  destruct (imported _ _ _) as [sc|]; [|left; reflexivity].
  destruct (usable sc); [right; exists sc|left]; reflexivity.
Qed.

Lemma run_keeps_registry (HC : registry_contract)
    (this : Logged.AssimpExportWrapper) (p : Process)
    (usdzFile objFile : string) :
  well_formed_registry (Logged.exporter this) ->
  well_formed_registry
    (Logged.exporter (fst (snd (Logged.usdzToObj usdzFile objFile (this, p))))) /\
  Exporter_GetExportFormatCount (Logged.exporter this) <=
  Exporter_GetExportFormatCount
    (Logged.exporter (fst (snd (Logged.usdzToObj usdzFile objFile (this, p))))).
Proof.
  intros Hwf.
  destruct (logged_exporter_after this p usdzFile objFile) as [H | [sc H]];
    rewrite H.
  - split; [exact Hwf | lia].
  - unfold exporter_after. split.
    + apply (export_keeps_registry HC). exact Hwf.
    + apply (export_keeps_count HC).
Qed.

(** Over a session, every format list is there, has the pattern in every
    entry, and is at least as long as the registry was at the start; the
    lengths never go down. *)
Lemma session_format_lists (HC : registry_contract) (ops : list Op) :
  forall (this : Logged.AssimpExportWrapper) (p : Process),
    well_formed_registry (Logged.exporter this) ->
    Forall (fun v => exists l, v = Some l /\ Forall entry_pattern l /\
                     Exporter_GetExportFormatCount (Logged.exporter this)
                     <= length l)
      (format_lists (session ops (this, p))) /\
    StronglySorted le (map size (format_lists (session ops (this, p)))).
Proof.
  induction ops as [|op ops IH]; intros this p Hwf.
  - split; constructor.
  - destruct op as [|usdzFile objFile|]; cbn [session format_lists fst snd].
    + destruct (IH this p Hwf) as [Hall Hsorted].
      destruct (well_formed_formats _ Hwf) as [l [Hl [Hlen Hpat]]].
      unfold Logged.getSupportedFormats. rewrite Hl. split.
      * constructor; [|exact Hall]. exists l. repeat split; auto. lia.
      * cbn [map size]. constructor; [exact Hsorted|].
        apply Forall_map. eapply Forall_impl; [|exact Hall].
        intros v [l' [-> [_ Hle]]]. simpl. lia.
    + destruct (run_keeps_registry HC this p usdzFile objFile Hwf)
        as [Hwf' Hle].
      destruct (Logged.usdzToObj usdzFile objFile (this, p))
        as [r [this' p']]. cbn [fst snd] in *.
      destruct (IH this' p' Hwf') as [Hall Hsorted].
      split; [|exact Hsorted].
      eapply Forall_impl; [|exact Hall].
      intros v [l [-> [Hpat Hlen]]]. exists l. repeat split; auto. lia.
    + apply IH. exact Hwf.
Qed.

(** C8. On a library whose exports remove no format and keep the registry
    well formed, over any sequence of calls of the three methods on an
    adapter whose registry is well formed, every call of
    [getSupportedFormats] returns a list, the lengths of these lists never
    decrease from one call to a later one, and every entry reads
    "<id> - <description>" with neither part empty. *)
Theorem format_lists_stable (HC : registry_contract)
    (this : Logged.AssimpExportWrapper) (p : Process) (ops : list Op)
    (Hwf : well_formed_registry (Logged.exporter this)) :
  Forall (fun v => exists l, v = Some l /\ Forall entry_pattern l)
    (format_lists (session ops (this, p))) /\
  StronglySorted le (map size (format_lists (session ops (this, p)))).
Proof.
  destruct (session_format_lists HC ops this p Hwf) as [Hall Hsorted].
  split; [|exact Hsorted].
  eapply Forall_impl; [|exact Hall].
  intros v [l [-> [Hpat _]]]. exists l. auto.
Qed.

End Registry.

(** ** The in-memory library meets the contracts *)

Section MockFacts.
Import Mock.

Lemma mock_missing_files : missing_file_contract (L := Mock.assimp).
Proof.
  intros f imp pFile pFlags H. simpl in *. unfold ReadFile.
  destruct (lookup f pFile); [discriminate|].
  split; [reflexivity | discriminate].
Qed.

Lemma mock_error_states : error_state_contract (L := Mock.assimp).
Proof.
  constructor.
  - reflexivity.
  - reflexivity.
  - intros f imp pFile pFlags sc. simpl. unfold ReadFile.
    destruct (lookup f pFile) as [c|]; [|discriminate].
    destruct (String.eqb c "complete"); [reflexivity|].
    destruct (String.eqb c "incomplete"); [reflexivity|].
    destruct (String.eqb c "rootless"); [reflexivity|].
    discriminate.
  - intros f e sc fmt path. simpl. unfold Export.
    destruct (existsb _ _); [|discriminate].
    destruct (String.prefix _ _); [discriminate | reflexivity].
Qed.

Lemma mock_export_registry (f : Files) (e : ExporterState) (sc : aiScene)
    (fmt path : string) :
  registry (snd (fst (Export f e sc fmt path))) = registry e.
Proof.
  unfold Export.
  destruct (existsb _ _); [|reflexivity].
  destruct (String.prefix _ _); reflexivity.
Qed.

Lemma mock_registry : registry_contract (L := Mock.assimp).
Proof.
  constructor.
  - intros f e sc fmt path. simpl.
    rewrite mock_export_registry. apply Nat.le_refl.
  - intros f e sc fmt path Hwf i. simpl.
    rewrite mock_export_registry. apply Hwf.
Qed.

Lemma mock_builtin_well_formed :
  well_formed_registry (L := Mock.assimp) (mkExporter builtin EmptyString).
Proof.
  intros i Hi. simpl in Hi.
  destruct i as [|[|[|i]]]; [| | |lia]; simpl;
    eexists; (split; [reflexivity | split; discriminate]).
Qed.

End MockFacts.

(** ** The statements at work on the in-memory library *)

Section Examples.
Import Mock.

Example convert_model :
  fst (Logged.usdzToObj "model.usdz" "out.obj" (Logged.new true boot)) = true.
Proof. reflexivity. Qed.

Example convert_incomplete :
  fst (Logged.usdzToObj "partial.usdz" "out.obj" (Logged.new true boot)) = false.
Proof. reflexivity. Qed.

Example convert_rootless :
  fst (Plain.usdzToObj "rootless.usdz" "out.obj" (Plain.new, boot)) = false.
Proof. reflexivity. Qed.

Example convert_unwritable :
  Logged.getLastError
    (fst (snd (Logged.usdzToObj "model.usdz" "/nonexistent/out.obj"
                 (Logged.new false boot)))) =
  "Export: Cannot open output file.".
Proof. reflexivity. Qed.

Example convert_log :
  cout (snd (snd (Logged.usdzToObj "notes.txt" "out.obj" (Logged.new true boot)))) =
  [ "[assimp_export] Logger enabled";
    "[assimp_export] Start converting USDZ -> OBJ";
    "[assimp_export] Input: notes.txt";
    "[assimp_export] Output: out.obj";
    "[assimp_export] Post-process flags: Triangulate | FlipUVs | GenSmoothNormals | JoinIdenticalVertices";
    "[assimp_export] Import failed: No suitable reader found for the file format." ].
Proof. reflexivity. Qed.

Example mock_import_flags : import_flags (L := Mock.assimp) = 0x80004a%Z.
Proof. reflexivity. Qed.

(** The adapter resets neither error string itself: on the importer that
    keeps its text, a conversion that returns true still leaves the text
    of the failure before it. *)
Remark adapter_keeps_no_error_state :
  fst (@Logged.usdzToObj Sticky.assimp "model.usdz" "out.obj"
         Sticky.after_failure) = true /\
  @Logged.getLastError Sticky.assimp
    (fst (snd (@Logged.usdzToObj Sticky.assimp "model.usdz" "out.obj"
                 Sticky.after_failure))) =
  "Import: Unable to open file.".
Proof. split; reflexivity. Qed.

Lemma getSupportedFormats_entries_witness :
  length builtin =
    Exporter_GetExportFormatCount (Logged.exporter (fst (Logged.new true boot))) /\
  Logged.getSupportedFormats (fst (Logged.new true boot)) =
    Some [ "collada - COLLADA - Digital Asset Exchange Schema";
           "obj - Wavefront OBJ format";
           "stl - Stereolithography" ].
Proof.
  split; [reflexivity|].
  exact (proj1 (getSupportedFormats_entries (L := Mock.assimp)
                  (fst (Logged.new true boot)) builtin
                  eq_refl (fun i _ => eq_refl))).
Defined.

Lemma missing_input_reported_witness :
  @file_exists Mock.assimp (fs boot) "missing.usdz" = false /\
  fst (Logged.usdzToObj "missing.usdz" "out.obj" (stale, boot)) = false /\
  String.prefix "Import: "
    (Logged.getLastError
       (fst (snd (Logged.usdzToObj "missing.usdz" "out.obj" (stale, boot)))))
  = true.
Proof.
  split; [reflexivity|].
  pose proof (missing_input_reported (L := Mock.assimp) mock_missing_files
                stale boot "missing.usdz" "out.obj" eq_refl) as H.
  exact (conj (proj1 (proj1 H)) (proj2 (proj2 (proj1 H)))).
Defined.

Lemma no_error_when_fresh_or_successful_witness :
  fst (Logged.usdzToObj "model.usdz" "out.obj" (stale, boot)) = true /\
  Logged.getLastError
    (fst (snd (Logged.usdzToObj "model.usdz" "out.obj" (stale, boot))))
  = EmptyString.
Proof.
  split; [reflexivity|].
  exact (proj1 (proj2 (proj2
           (no_error_when_fresh_or_successful (L := Mock.assimp)
              mock_error_states)))
           stale boot "model.usdz" "out.obj" eq_refl).
Defined.

Lemma format_lists_stable_witness :
  map size (format_lists (session calls_of (Logged.new false boot))) = [3; 3; 3] /\
  StronglySorted le
    (map size (format_lists (session calls_of (Logged.new false boot)))).
Proof.
  split; [reflexivity|].
  exact (proj2 (format_lists_stable (L := Mock.assimp) mock_registry
                  (fst (Logged.new false boot)) (snd (Logged.new false boot))
                  calls_of mock_builtin_well_formed)).
Defined.

End Examples.

(** ** The lines a logged conversion writes *)

Section Lines.
Context {L : Assimp}.


End Lines.

(** ** Beyond the contract: logging *)

Section Logging.
Context {L : Assimp}.




End Logging.

(** ** Beyond the contract: what a failed import leaves *)

Section Frame.
Context {L : Assimp}.

Lemma plain_files_after (this : Plain.AssimpExportWrapper) (p : Process)
    (usdzFile objFile : string) :
  fs (snd (snd (Plain.usdzToObj usdzFile objFile (this, p)))) =
  match imported (fs p) (Plain.importer this) usdzFile with
  | Some sc =>
      if usable sc
      then files_after (fs p) (Plain.exporter this) sc objFile
      else fs p
  | None => fs p
  end.
Proof.
  rewrite plain_usdzToObj_run.
  destruct (imported _ _ _) as [sc|]; [|reflexivity].
  destruct (usable sc); reflexivity.
Qed.

Lemma logged_files_after (this : Logged.AssimpExportWrapper) (p : Process)
    (usdzFile objFile : string) :
  fs (snd (snd (Logged.usdzToObj usdzFile objFile (this, p)))) =
  fs (snd (snd (Plain.usdzToObj usdzFile objFile (forget this, p)))).
Proof.
  pose proof (logged_observable this p usdzFile objFile) as H.
  unfold observable, plain_observable in H.
  injection H as _ _ H _. exact H.
Qed.

(** When the import gave no usable scene, the plain run is false and
    keeps the exporter and the files. *)
Lemma plain_unusable (this : Plain.AssimpExportWrapper) (p : Process)
    (usdzFile objFile : string) :
  export_attempted (imported (fs p) (Plain.importer this) usdzFile) = false ->
  fst (Plain.usdzToObj usdzFile objFile (this, p)) = false /\
  fst (snd (Plain.usdzToObj usdzFile objFile (this, p))) =
    Plain.mkWrapper (importer_after (fs p) (Plain.importer this) usdzFile)
      (Plain.exporter this) /\
  fs (snd (snd (Plain.usdzToObj usdzFile objFile (this, p)))) = fs p.
Proof.
  intros H.
  rewrite plain_result, plain_handles_after, plain_files_after.
  unfold converts, export_attempted in *.
  destruct (imported _ _ _) as [sc|]; [|auto].
  rewrite H. auto.
Qed.

(** X3. A run whose import gives no scene, an incomplete scene or a scene
    without a root returns false, makes no export call, leaves the file
    system and the exporter as they were, and leaves in the importer what
    the import left.  Both variants. *)
Theorem failed_import_touches_nothing
    (this : Logged.AssimpExportWrapper) (p : Process)
    (usdzFile objFile : string)
    (Hfail : export_attempted
               (imported (fs p) (Logged.importer this) usdzFile) = false) :
  (fst (Logged.usdzToObj usdzFile objFile (this, p)) = false /\
   export_calls
     (made p (snd (snd (Logged.usdzToObj usdzFile objFile (this, p))))) = [] /\
   fs (snd (snd (Logged.usdzToObj usdzFile objFile (this, p)))) = fs p /\
   Logged.exporter (fst (snd (Logged.usdzToObj usdzFile objFile (this, p)))) =
     Logged.exporter this /\
   Logged.importer (fst (snd (Logged.usdzToObj usdzFile objFile (this, p)))) =
     importer_after (fs p) (Logged.importer this) usdzFile) /\
  (fst (Plain.usdzToObj usdzFile objFile (forget this, p)) = false /\
   export_calls
     (made p (snd (snd (Plain.usdzToObj usdzFile objFile (forget this, p)))))
     = [] /\
   fs (snd (snd (Plain.usdzToObj usdzFile objFile (forget this, p)))) = fs p /\
   fst (snd (Plain.usdzToObj usdzFile objFile (forget this, p))) =
     Plain.mkWrapper (importer_after (fs p) (Logged.importer this) usdzFile)
       (Logged.exporter this)).
Proof.
  destruct (plain_unusable (forget this) p usdzFile objFile Hfail)
    as [Hr [Hh Hf]].
  split.
  - rewrite logged_result, logged_made, export_calls_expected, Hfail,
      logged_files_after, Hf.
    pose proof (logged_handles_after this p usdzFile objFile) as H.
    rewrite Hh in H. unfold forget in H. injection H as Hi He.
    rewrite plain_result in Hr.
    repeat split; assumption.
  - pose proof (plain_made (forget this) p usdzFile objFile) as Hm.
    rewrite Hm, export_calls_expected.
    cbn [forget Plain.importer]. rewrite Hfail.
    repeat split; assumption.
Qed.

(** X4. After a run whose import gave no usable scene and left no error
    text in the importer, [getLastError] reports what the exporter held
    before the run: its text behind "Export: ", or nothing.  The answer
    then stems from an earlier operation.  Both variants. *)
Theorem stale_export_error_surfaces
    (this : Logged.AssimpExportWrapper) (p : Process)
    (usdzFile objFile : string)
    (Hfail : export_attempted
               (imported (fs p) (Logged.importer this) usdzFile) = false)
    (Hquiet : Importer_GetErrorString
                (importer_after (fs p) (Logged.importer this) usdzFile)
              = EmptyString) :
  Logged.getLastError
    (fst (snd (Logged.usdzToObj usdzFile objFile (this, p)))) =
  (if empty (Exporter_GetErrorString (Logged.exporter this)) then EmptyString
   else "Export: " ++ Exporter_GetErrorString (Logged.exporter this)) /\
  Plain.getLastError
    (fst (snd (Plain.usdzToObj usdzFile objFile (forget this, p)))) =
  (if empty (Exporter_GetErrorString (Logged.exporter this)) then EmptyString
   else "Export: " ++ Exporter_GetErrorString (Logged.exporter this)).
Proof.
  destruct (plain_unusable (forget this) p usdzFile objFile Hfail)
    as [_ [Hh _]].
  rewrite getLastError_forget, logged_handles_after, Hh.
  unfold Plain.getLastError. cbn [Plain.importer Plain.exporter forget].
  rewrite Hquiet. cbn [empty negb].
  destruct (empty (Exporter_GetErrorString (Logged.exporter this)));
    split; reflexivity.
Qed.

End Frame.

(** ** Beyond the contract: the format list and the error text *)

Section Answers.
Context {L : Assimp}.

Lemma descriptors_nth_present (e : Exporter) (i : nat) :
  i < Exporter_GetExportFormatCount e ->
  Exporter_GetExportFormatDescription e i <> None ->
  Exporter_GetExportFormatDescription e i = nth_error (descriptors e) i.
Proof.
  intros Hi Hd. unfold descriptors.
  rewrite nth_error_map, nth_error_seq.
  destruct (Nat.ltb_spec i (Exporter_GetExportFormatCount e)); [|lia].
  simpl. destruct (Exporter_GetExportFormatDescription e i);
    [reflexivity | contradiction].
Qed.

Lemma formats_loop_defined (e : Exporter) :
  (forall i, i < Exporter_GetExportFormatCount e ->
     Exporter_GetExportFormatDescription e i <> None) ->
  formats_loop e 0 [] = Some (map format_entry (descriptors e)).
Proof.
  intros Hall.
  apply (formats_loop_descriptors e (descriptors e) 0 []).
  - apply descriptors_length.
  - intros j Hj. rewrite descriptors_length in Hj.
    apply descriptors_nth_present; auto.
Qed.

(** X5. [getSupportedFormats] comes back with a list exactly when no
    descriptor below the count is a null pointer (the source dereferences
    it unchecked), and the list then has one entry per index below the
    count.  Both variants. *)
Theorem getSupportedFormats_defined_iff (this : Logged.AssimpExportWrapper) :
  ((exists l, Logged.getSupportedFormats this = Some l) <->
   (forall i, i < Exporter_GetExportFormatCount (Logged.exporter this) ->
      Exporter_GetExportFormatDescription (Logged.exporter this) i <> None)) /\
  (forall l, Logged.getSupportedFormats this = Some l ->
     length l = Exporter_GetExportFormatCount (Logged.exporter this)) /\
  Plain.getSupportedFormats (forget this) = Logged.getSupportedFormats this.
Proof.
  unfold Logged.getSupportedFormats, Plain.getSupportedFormats.
  assert (Hnull :
    forall l, formats_loop (Logged.exporter this) 0 [] = Some l ->
    forall i, i < Exporter_GetExportFormatCount (Logged.exporter this) ->
      Exporter_GetExportFormatDescription (Logged.exporter this) i <> None).
  { intros l Hl i Hi Hd.
    rewrite (formats_loop_null (Logged.exporter this) _ 0 [] eq_refl) in Hl.
    - discriminate.
    - exists i. split; [lia | exact Hd]. }
  split; [split|split].
  - intros [l Hl]. exact (Hnull l Hl).
  - intros Hall. eexists. apply formats_loop_defined. exact Hall.
  - intros l Hl.
    rewrite (formats_loop_defined _ (Hnull l Hl)) in Hl.
    injection Hl as <-. rewrite length_map. apply descriptors_length.
  - reflexivity.
Qed.

(** X6. The answer of [getLastError] tells its origin: it is empty exactly
    when both error strings are empty, it starts with "Import: " exactly
    when the importer's string is not empty, and it starts with "Export: "
    exactly when the importer's string is empty and the exporter's is
    not. *)
Theorem getLastError_origin (this : Logged.AssimpExportWrapper) :
  (Logged.getLastError this = EmptyString <->
   Importer_GetErrorString (Logged.importer this) = EmptyString /\
   Exporter_GetErrorString (Logged.exporter this) = EmptyString) /\
  (String.prefix "Import: " (Logged.getLastError this) = true <->
   Importer_GetErrorString (Logged.importer this) <> EmptyString) /\
  (String.prefix "Export: " (Logged.getLastError this) = true <->
   Importer_GetErrorString (Logged.importer this) = EmptyString /\
   Exporter_GetErrorString (Logged.exporter this) <> EmptyString).
Proof.
  unfold Logged.getLastError.
  destruct (Importer_GetErrorString (Logged.importer this)) as [|a ie];
    destruct (Exporter_GetErrorString (Logged.exporter this)) as [|b ee];
    cbn [empty negb];
    (split; [|split]); split; intros H; simpl in *;
    intuition (try discriminate; try congruence).
Qed.

End Answers.

(** ** Beyond the contract: whole sessions *)

Section WholeSessions.
Context {L : Assimp}.

(** A plain run reads the handles and the files, nothing else of the
    process. *)
Lemma plain_frame (this : Plain.AssimpExportWrapper) (p p' : Process)
    (usdzFile objFile : string) :
  fs p = fs p' ->
  fst (Plain.usdzToObj usdzFile objFile (this, p)) =
    fst (Plain.usdzToObj usdzFile objFile (this, p')) /\
  fst (snd (Plain.usdzToObj usdzFile objFile (this, p))) =
    fst (snd (Plain.usdzToObj usdzFile objFile (this, p'))) /\
  fs (snd (snd (Plain.usdzToObj usdzFile objFile (this, p)))) =
    fs (snd (snd (Plain.usdzToObj usdzFile objFile (this, p')))).
Proof.
  intros H.
  rewrite !plain_result, !plain_handles_after, !plain_files_after, H.
  auto.
Qed.

Lemma sessions_agree (ops : list Op) :
  forall (st : Logged.State) (st0 : Plain.State),
    forget (fst st) = fst st0 ->
    fs (snd st) = fs (snd st0) ->
    session ops st = plain_session ops st0.
Proof.
  induction ops as [|op ops IH]; intros [this p] [this0 p0] Hh Hf;
    [reflexivity|].
  cbn [fst snd] in Hh, Hf. subst this0.
  destruct op as [|usdzFile objFile|]; cbn [session plain_session fst snd].
  - f_equal. apply IH; [reflexivity | exact Hf].
  - pose proof (logged_observable this p usdzFile objFile) as Ho.
    unfold observable, plain_observable in Ho.
    injection Ho as Hr Hh' Hf' _.
    destruct (plain_frame (forget this) p p0 usdzFile objFile Hf)
      as [Fr [Fh Ff]].
    f_equal.
    + f_equal. cbn [fst snd] in *. congruence.
    + apply IH; cbn [fst snd] in *; congruence.
  - f_equal. apply IH; [reflexivity | exact Hf].
Qed.

(** X7. Called in the same order on the same handles and files, the two
    variants give the same answers over a whole session, whatever the
    logging flag and whatever was written to std::cout on the way. *)
Theorem session_variants_agree (ops : list Op)
    (this : Logged.AssimpExportWrapper) (p : Process) :
  session ops (this, p) = plain_session ops (forget this, p).
Proof.
  apply sessions_agree; reflexivity.
Qed.

Lemma logged_run_shape (this : Logged.AssimpExportWrapper) (p : Process)
    (usdzFile objFile : string) :
  Logged.enable_logging
    (fst (snd (Logged.usdzToObj usdzFile objFile (this, p)))) =
    Logged.enable_logging this /\
  (exists lines,
     cout (snd (snd (Logged.usdzToObj usdzFile objFile (this, p)))) =
     (cout p ++ lines)%list /\
     (Logged.enable_logging this = false -> lines = [])) /\
  calls (snd (snd (Logged.usdzToObj usdzFile objFile (this, p)))) =
    (calls p ++
     expected_calls (imported (fs p) (Logged.importer this) usdzFile)
       usdzFile objFile)%list.
Proof.
  destruct (logged_usdzToObj_run this p usdzFile objFile)
    as [lines [H Hoff]].
  rewrite H.
  pose proof (plain_usdzToObj_run (forget this) p usdzFile objFile) as Hp.
  destruct (Plain.usdzToObj usdzFile objFile (forget this, p))
    as [r [this0 p0]].
  cbn [fst snd Logged.enable_logging cout calls].
  split; [reflexivity|]. split; [exists lines; auto|].
  cbn [forget Plain.importer] in Hp.
  destruct (imported (fs p) (Logged.importer this) usdzFile) as [sc|];
    [destruct (usable sc)|]; injection Hp as _ _ Hp; subst p0; reflexivity.
Qed.

(** X8. Over a whole session the logging flag stays as constructed and
    std::cout is only appended to; with the flag off nothing is written
    at all. *)
Theorem session_flag_fixed (ops : list Op) :
  forall (this : Logged.AssimpExportWrapper) (p : Process),
    Logged.enable_logging (fst (session_end ops (this, p))) =
      Logged.enable_logging this /\
    exists lines,
      cout (snd (session_end ops (this, p))) = (cout p ++ lines)%list /\
      (Logged.enable_logging this = false -> lines = []).
Proof.
  induction ops as [|op ops IH]; intros this p.
  - split; [reflexivity|]. exists []. rewrite app_nil_r. auto.
  - destruct op as [|usdzFile objFile|]; cbn [session_end]; try apply IH.
    destruct (logged_run_shape this p usdzFile objFile)
      as [Hflag [[l1 [Hc Hoff]] _]].
    destruct (Logged.usdzToObj usdzFile objFile (this, p))
      as [r [this' p']]. cbn [fst snd] in *.
    destruct (IH this' p') as [Hflag' [l2 [Hc' Hoff']]].
    split; [congruence|].
    exists (l1 ++ l2)%list. split.
    + rewrite Hc', Hc, app_assoc. reflexivity.
    + intros H. rewrite Hoff, Hoff' by congruence. reflexivity.
Qed.

Lemma import_calls_app (cs cs' : list LibCall) :
  import_calls (cs ++ cs') = (import_calls cs ++ import_calls cs')%list.
Proof.
  induction cs as [|[f fl|sc fmt path] cs IH]; simpl; congruence.
Qed.

Lemma export_calls_app (cs cs' : list LibCall) :
  export_calls (cs ++ cs') = (export_calls cs ++ export_calls cs')%list.
Proof.
  induction cs as [|[f fl|sc fmt path] cs IH]; simpl; congruence.
Qed.

Lemma session_calls (ops : list Op) :
  forall (this : Logged.AssimpExportWrapper) (p : Process),
    exists cs,
      calls (snd (session_end ops (this, p))) = (calls p ++ cs)%list /\
      import_calls cs =
        map (fun c => (fst c, import_flags)) (conversions ops) /\
      incl (export_calls cs) (map (fun c => ("obj", snd c)) (conversions ops)) /\
      length (export_calls cs) <= length (conversions ops).
Proof.
  induction ops as [|op ops IH]; intros this p.
  - exists []. rewrite app_nil_r. repeat split; auto. intros x [].
  - destruct op as [|usdzFile objFile|];
      cbn [session_end conversions]; try apply IH.
    destruct (logged_run_shape this p usdzFile objFile) as [_ [_ Hc]].
    remember (expected_calls (imported (fs p) (Logged.importer this) usdzFile)
                usdzFile objFile) as c1 eqn:E1.
    assert (Hi : import_calls c1 = [(usdzFile, import_flags)])
      by (subst c1; apply import_calls_expected).
    assert (He : export_calls c1 = [] \/ export_calls c1 = [("obj", objFile)]).
    { subst c1. rewrite export_calls_expected.
      destruct (export_attempted _); auto. }
    destruct (Logged.usdzToObj usdzFile objFile (this, p))
      as [r [this' p']]. cbn [fst snd] in *.
    destruct (IH this' p') as [c2 [Hc2 [Hi2 [He2 Hl2]]]].
    exists (c1 ++ c2)%list. split; [|split; [|split]].
    + rewrite Hc2, Hc, app_assoc. reflexivity.
    + rewrite import_calls_app, Hi, Hi2. reflexivity.
    + rewrite export_calls_app. cbn [map fst snd].
      apply incl_app.
      * destruct He as [-> | ->]; intros x Hx; simpl in Hx;
          [contradiction | destruct Hx as [<- | []]; left; reflexivity].
      * apply incl_tl. exact He2.
    + rewrite export_calls_app, length_app. cbn [length].
      destruct He as [-> | ->]; simpl; lia.
Qed.

(** X9. Over a whole session the adapter calls the import once for every
    conversion asked for, in the order asked, on that conversion's input
    path and always with the same flag word; every export call names the
    format "obj" and the output path of one of the conversions, and there
    are at most as many export calls as conversions.  Listing the formats
    and reading the last error make no such call. *)
Theorem session_library_calls (ops : list Op)
    (this : Logged.AssimpExportWrapper) (p : Process) :
  import_calls (made p (snd (session_end ops (this, p)))) =
    map (fun c => (fst c, import_flags)) (conversions ops) /\
  incl (export_calls (made p (snd (session_end ops (this, p)))))
       (map (fun c => ("obj", snd c)) (conversions ops)) /\
  length (export_calls (made p (snd (session_end ops (this, p))))) <=
    length (conversions ops).
Proof.
  destruct (session_calls ops this p) as [cs [Hc H]].
  rewrite (made_app _ _ _ Hc). exact H.
Qed.

End WholeSessions.

(** ** These statements at work on the in-memory library *)

Section MoreExamples.
Import Mock.

Example session_on_disk :
  session calls_of (Logged.new true boot) =
  plain_session calls_of (Plain.new, boot).
Proof. reflexivity. Qed.

Example session_imports :
  import_calls (made boot (snd (session_end calls_of (Logged.new false boot)))) =
  [ ("model.usdz", 0x80004a%Z); ("missing.usdz", 0x80004a%Z) ].
Proof. reflexivity. Qed.

Lemma failed_import_touches_nothing_witness :
  export_attempted (imported (fs boot) (Logged.importer stale) "partial.usdz")
    = false /\
  fst (Logged.usdzToObj "partial.usdz" "out.obj" (stale, boot)) = false /\
  fs (snd (snd (Logged.usdzToObj "partial.usdz" "out.obj" (stale, boot)))) =
    disk.
Proof.
  split; [reflexivity|].
  pose proof (failed_import_touches_nothing (L := Mock.assimp)
                stale boot "partial.usdz" "out.obj" eq_refl) as H.
  exact (conj (proj1 (proj1 H)) (proj1 (proj2 (proj2 (proj1 H))))).
Defined.

Lemma stale_export_error_surfaces_witness :
  fst (Logged.usdzToObj "partial.usdz" "out.obj" (stale, boot)) = false /\
  Logged.getLastError
    (fst (snd (Logged.usdzToObj "partial.usdz" "out.obj" (stale, boot)))) =
  "Export: Cannot open output file.".
Proof.
  split; [reflexivity|].
  exact (proj1 (stale_export_error_surfaces (L := Mock.assimp)
                  stale boot "partial.usdz" "out.obj" eq_refl eq_refl)).
Defined.

End MoreExamples.
